(** * ckanext-dcat: URI helpers of [ckanext/dcat/utils.py]

    A shallow embedding of the helper functions that derive the URIs of the
    catalog, of datasets, of resources and of publishers, and of the two
    translators between endpoint and rdflib format names.

    The Python code works on dictionaries with dynamically typed values, reads
    the process-wide configuration, draws random UUIDs, writes to a logger and
    raises exceptions.  The embedding keeps all of that visible:
    - dictionaries are [gmap string value], with [value] the universe of the
      Python values the records hold;
    - the configuration, the legacy resource table and the UUID generator are
      the read-only environment [Env];
    - the number of UUIDs drawn so far and the log are the mutable [state];
    - a function that may raise returns a [result] in the monad [M]. *)

From Stdlib Require Import Ascii String.
From stdpp Require Import gmap strings list pretty.

#[local] Open Scope string_scope.
#[local] Set Warnings "-register-all".

(** ** Python values *)

Inductive value : Type :=
| VNone
| VStr (s : string)
| VList (l : list value)
| VDict (d : gmap string value).

(** Python truthiness: [None], the empty string, the empty list and the empty
    dictionary are false. *)
Definition truthy (v : value) : bool :=
  match v with
  | VNone => false
  | VStr s => negb (String.eqb s "")
  | VList l => match l with [] => false | _ :: _ => true end
  | VDict d => match map_to_list d with [] => false | _ :: _ => true end
  end.

(** [v == s] for a string literal [s]. *)
Definition eq_str (v : value) (s : string) : bool :=
  match v with
  | VStr s' => String.eqb s' s
  | _ => false
  end.

(** ** String methods *)

Fixpoint str_contains (c : ascii) (chars : string) : bool :=
  match chars with
  | EmptyString => false
  | String c' rest => Ascii.eqb c c' || str_contains c rest
  end.

(** [s.rstrip(chars)]: drops the longest suffix made of characters of
    [chars]. *)
Fixpoint rstrip (chars s : string) : string :=
  match s with
  | EmptyString => EmptyString
  | String c s' =>
      match rstrip chars s' with
      | EmptyString =>
          if str_contains c chars then EmptyString else String c EmptyString
      | String _ _ as r => String c r
      end
  end.

Fixpoint replace_from (old new : string) (skip : nat) (s : string) : string :=
  match s with
  | EmptyString => EmptyString
  | String c s' =>
      match skip with
      | S k => replace_from old new k s'
      | O =>
          if String.prefix old s
          then new +:+ replace_from old new (String.length old - 1) s'
          else String c (replace_from old new 0 s')
      end
  end.

Fixpoint interleave (new s : string) : string :=
  match s with
  | EmptyString => EmptyString
  | String c s' => String c (new +:+ interleave new s')
  end.

(** [s.replace(old, new)]: every occurrence of [old], found left to right
    without overlap, is replaced by [new]; an empty [old] matches before every
    character and at the end. *)
Definition replace (old new s : string) : string :=
  match old with
  | EmptyString => new +:+ interleave new s
  | String _ _ => replace_from old new 0 s
  end.

(** ** Environment, state and the exception monad *)

Inductive exn : Type :=
| KeyError (key : string)
| TypeError
| AttributeError.

Inductive result (A : Type) : Type :=
| Ok (a : A)
| Raise (e : exn).
Arguments Ok {A} a.
Arguments Raise {A} e.

Inductive level : Type := CRITICAL | WARNING.

(** A persisted resource of [ckan.model], as far as this module uses it. *)
Record Resource : Type := { get_package_id : value }.

Record Env : Type := {
  (** [pylons.config]: option name to value *)
  config : gmap string string;
  (** [model.Resource.get] *)
  Resource_get : value -> option Resource;
  (** [str(uuid.uuid4())], indexed by the number of UUIDs drawn before *)
  uuid4 : nat -> string;
  (** [str()] of a list or of a dictionary *)
  str_compound : value -> string
}.

Record state : Type := {
  uuid_count : nat;
  log : list (level * string)
}.

Definition M (A : Type) : Type := state -> result A * state.

Definition ret {A} (a : A) : M A := fun st => (Ok a, st).

Definition raise {A} (e : exn) : M A := fun st => (Raise e, st).

Definition bind {A B} (m : M A) (k : A -> M B) : M B :=
  fun st =>
    match m st with
    | (Ok a, st') => k a st'
    | (Raise e, st') => (Raise e, st')
    end.

Notation "'let*' x ':=' m 'in' k" := (bind m (fun x => k))
  (at level 10, x name, m at level 100, k at level 200, only parsing).
Notation "m ;; k" := (bind m (fun _ => k))
  (at level 100, k at level 200, right associativity, only parsing).

Definition fresh (st : state) : state :=
  {| uuid_count := S (uuid_count st); log := log st |}.

Definition logged (lvl : level) (msg : string) (st : state) : state :=
  {| uuid_count := uuid_count st; log := log st ++ [(lvl, msg)] |}.

Definition log_write (lvl : level) (msg : string) : M unit :=
  fun st => (Ok tt, logged lvl msg st).

(** ** Operations on values *)

(** [d.get(k)] and [d.get(k, default)] *)
Definition dict_get (d : gmap string value) (k : string) : value :=
  default VNone (d !! k).

Definition dict_get_default (d : gmap string value) (k : string) (dflt : value)
  : value :=
  default dflt (d !! k).

(** [d[k]] on a dictionary *)
Definition dict_getitem (d : gmap string value) (k : string) : M value :=
  match d !! k with
  | Some v => ret v
  | None => raise (KeyError k)
  end.

(** [v[k]] with a string [k]: only a dictionary can be indexed by a string. *)
Definition getitem (v : value) (k : string) : M value :=
  match v with
  | VDict d => dict_getitem d k
  | _ => raise TypeError
  end.

Definition chars_of (s : string) : list value :=
  (fun c => VStr (String c EmptyString)) <$> list_ascii_of_string s.

(** The elements a [for] loop over [v] visits. *)
Definition iter (v : value) : M (list value) :=
  match v with
  | VList l => ret l
  | VStr s => ret (chars_of s)
  | VDict d => ret (VStr <$> (map_to_list d).*1)
  | VNone => raise TypeError
  end.

Definition method_rstrip (v : value) (chars : string) : M value :=
  match v with
  | VStr s => ret (VStr (rstrip chars s))
  | _ => raise AttributeError
  end.

Definition method_replace (v : value) (old new : string) : M value :=
  match v with
  | VStr s => ret (VStr (replace old new s))
  | _ => raise AttributeError
  end.

(** ['literal' + v] *)
Definition str_add (s : string) (v : value) : M value :=
  match v with
  | VStr s' => ret (VStr (s +:+ s'))
  | _ => raise TypeError
  end.

Section Utils.

Variable E : Env.

(** What [str.format] puts in place of a field. *)
Definition str (v : value) : string :=
  match v with
  | VNone => "None"
  | VStr s => s
  | _ => str_compound E v
  end.

Definition config_get (k : string) : value :=
  match config E !! k with
  | Some s => VStr s
  | None => VNone
  end.

(** [str(uuid.uuid4())] *)
Definition uuid4_str : M value :=
  fun st => (Ok (VStr (uuid4 E (uuid_count st))), fresh st).

Definition catalog_uri : M value :=
  let uri := config_get "ckanext.dcat.base_uri" in
  let uri := if negb (truthy uri) then config_get "ckan.site_url" else uri in
  if negb (truthy uri) then
    let app_uuid := config_get "app_instance_uuid" in
    if truthy app_uuid then
      let* a := method_replace app_uuid "{" "" in
      let* b := method_replace a "}" "" in
      let* uri := str_add "http://" b in
      log_write CRITICAL
             ("Using app id as catalog URI, you should set the " +:+
              "`ckanext.dcat.base_uri` or `ckan.site_url` option") ;;
      ret uri
    else
      let* u := uuid4_str in
      let* uri := str_add "http://" u in
      log_write CRITICAL
             ("Using a random id as catalog URI, you should set " +:+
              "the `ckanext.dcat.base_uri` or `ckan.site_url` " +:+
              "option") ;;
      ret uri
  else ret uri.

Fixpoint extras_loop (name : string) (extras : list value) (uri : value)
  : M value :=
  match extras with
  | [] => ret uri
  | extra :: rest =>
      let* k := getitem extra "key" in
      if eq_str k name
      then getitem extra "value" (* uri = extra['value']; break *)
      else extras_loop name rest uri
  end.

Definition dataset_uri (dataset_dict : gmap string value) : M value :=
  let uri := dict_get dataset_dict "uri" in
  let* uri :=
    (if negb (truthy uri) then
       let* extras := iter (dict_get_default dataset_dict "extras" (VList [])) in
       extras_loop "uri" extras uri
     else ret uri) in
  let* uri :=
    (if negb (truthy uri) && truthy (dict_get dataset_dict "id") then
       let* c := catalog_uri in
       let* base := method_rstrip c "/" in
       let* id := dict_getitem dataset_dict "id" in
       ret (VStr (str base +:+ "/dataset/" +:+ str id))
     else ret uri) in
  if negb (truthy uri) then
    let* c := catalog_uri in
    let* base := method_rstrip c "/" in
    let* u := uuid4_str in
    let uri := VStr (str base +:+ "/dataset/" +:+ str u) in
    log_write WARNING "Using a random id for dataset URI" ;;
    ret uri
  else ret uri.

Definition dataset_id_from_resource (resource_dict : gmap string value)
  : M value :=
  let dataset_id := dict_get resource_dict "package_id" in
  if truthy dataset_id then ret dataset_id
  else
    (* CKAN < 2.3 *)
    let* id := dict_getitem resource_dict "id" in
    match Resource_get E id with
    | Some resource => ret (get_package_id resource)
    | None => ret VNone
    end.

Definition resource_uri (resource_dict : gmap string value) : M value :=
  let uri := dict_get resource_dict "uri" in
  if negb (truthy uri) then
    let* dataset_id := dataset_id_from_resource resource_dict in
    let* c := catalog_uri in
    let* base := method_rstrip c "/" in
    let* id := dict_getitem resource_dict "id" in
    ret (VStr (str base +:+ "/dataset/" +:+ str dataset_id +:+
               "/resource/" +:+ str id))
  else ret uri.

Definition publisher_uri_from_dataset_dict (dataset_dict : gmap string value)
  : M value :=
  let uri := dict_get dataset_dict "pubisher_uri" in
  let* uri :=
    (if negb (truthy uri) then
       let* extras := iter (dict_get_default dataset_dict "extras" (VList [])) in
       extras_loop "publisher_uri" extras uri
     else ret uri) in
  if negb (truthy uri) && truthy (dict_get dataset_dict "organization") then
    let* c := catalog_uri in
    let* base := method_rstrip c "/" in
    let* organization := dict_getitem dataset_dict "organization" in
    let* id := getitem organization "id" in
    ret (VStr (str base +:+ "/organization/" +:+ str id))
  else ret uri.

End Utils.

Definition url_to_rdflib_format (_format : string) : string :=
  if String.eqb _format "ttl" then "turtle"
  else if existsb (String.eqb _format) ["rdf"; "xml"] then "pretty-xml"
  else if String.eqb _format "jsonld" then "json-ld"
  else _format.

Definition rdflib_to_url_format (_format : string) : string :=
  if String.eqb _format "turtle" then "ttl"
  else if String.eqb _format "pretty-xml" then "xml"
  else if String.eqb _format "json-ld" then "jsonld"
  else _format.

(** The content types served for each endpoint format. *)
Definition CONTENT_TYPES : gmap string string :=
  list_to_map
    [("rdf", "application/rdf+xml");
     ("xml", "application/rdf+xml");
     ("n3", "text/n3");
     ("ttl", "text/turtle");
     ("jsonld", "application/ld+json")].

(** ** The records of the data model

    A field of a record is optional: its key may be missing, and a present
    key may hold [None]. *)

Definition is_opt_str (v : value) : bool :=
  match v with
  | VNone | VStr _ => true
  | _ => false
  end.

Definition opt_str_field (d : gmap string value) (k : string) : bool :=
  match d !! k with
  | None => true
  | Some v => is_opt_str v
  end.

(** An entry of [extras]: a key/value pair. *)
Definition is_extra (v : value) : bool :=
  match v with
  | VDict e =>
      match e !! "key", e !! "value" with
      | Some (VStr _), Some x => is_opt_str x
      | _, _ => false
      end
  | _ => false
  end.

Definition extras_ok (d : gmap string value) : bool :=
  match d !! "extras" with
  | None => true
  | Some (VList l) => forallb is_extra l
  | Some _ => false
  end.

(** The nested organization record carries an [id]. *)
Definition organization_ok (d : gmap string value) : bool :=
  match d !! "organization" with
  | None | Some VNone => true
  | Some (VDict o) =>
      match o !! "id" with
      | Some (VStr _) => true
      | _ => false
      end
  | Some _ => false
  end.

Definition dataset_record (d : gmap string value) : bool :=
  opt_str_field d "uri" && opt_str_field d "id" &&
  opt_str_field d "publisher_uri" && opt_str_field d "pubisher_uri" &&
  extras_ok d && organization_ok d.

Definition resource_record (r : gmap string value) : bool :=
  opt_str_field r "uri" && opt_str_field r "id" && opt_str_field r "package_id".

(** ** What the specification reads off a record *)

Definition nonempty (v : value) : option string :=
  match v with
  | VStr (String _ _ as s) => Some s
  | _ => None
  end.

(** The non-empty string held by field [k], if any. *)
Definition field (d : gmap string value) (k : string) : option string :=
  match d !! k with
  | Some v => nonempty v
  | None => None
  end.

Definition extras_of (d : gmap string value) : list value :=
  match d !! "extras" with
  | Some (VList l) => l
  | _ => []
  end.

Definition has_key (name : string) (extra : value) : bool :=
  match extra with
  | VDict e =>
      match e !! "key" with
      | Some (VStr k) => String.eqb k name
      | _ => false
      end
  | _ => false
  end.

(** The [value] of the first entry whose [key] is [name]. *)
Definition first_extra_value (name : string) (extras : list value)
  : option value :=
  match List.find (has_key name) extras with
  | Some (VDict e) => e !! "value"
  | _ => None
  end.

(** The same, when it is a non-empty string. *)
Definition first_extra (name : string) (d : gmap string value) : option string :=
  match first_extra_value name (extras_of d) with
  | Some v => nonempty v
  | None => None
  end.

(** The non-empty value of a configuration option, if any. *)
Definition setting (E : Env) (k : string) : option string :=
  match config E !! k with
  | Some (String _ _ as s) => Some s
  | _ => None
  end.

(** A string with all its braces removed. *)
Definition without_braces (s : string) : string :=
  string_of_list_ascii
    (List.filter (fun c => negb (Ascii.eqb c "{" || Ascii.eqb c "}"))
       (list_ascii_of_string s)).

Definition app_id_warning : string :=
  "Using app id as catalog URI, you should set the `ckanext.dcat.base_uri` or `ckan.site_url` option".

Definition random_id_warning : string :=
  "Using a random id as catalog URI, you should set the `ckanext.dcat.base_uri` or `ckan.site_url` option".

(** The dataset id [resource_uri] puts in the URI of a resource that has the
    [id] field [id]. *)
Definition owner (E : Env) (r : gmap string value) (id : value) : value :=
  if truthy (dict_get r "package_id") then dict_get r "package_id"
  else
    match Resource_get E id with
    | Some resource => get_package_id resource
    | None => VNone
    end.

(** ** Sample inputs *)

(** An environment whose only configuration option is the base URI. *)
Definition env_of_base (base : string) : Env :=
  {| config := {[ "ckanext.dcat.base_uri" := base ]};
     Resource_get := fun _ => None;
     uuid4 := fun n => "uuid-" +:+ pretty n;
     str_compound := fun _ => "" |}.

Definition st0 : state := {| uuid_count := 0; log := [] |}.

Definition dataset_abc : gmap string value := {[ "id" := VStr "abc" ]}.

Definition dataset_publisher : gmap string value :=
  {[ "publisher_uri" := VStr "http://pub.org" ]}.

Definition dataset_org1 : gmap string value :=
  {[ "organization" := VDict {[ "id" := VStr "org1" ]} ]}.

Definition extra (k v : string) : value :=
  VDict (<[ "key" := VStr k ]> {[ "value" := VStr v ]}).

Definition dataset_empty_extra : gmap string value :=
  <[ "id" := VStr "abc" ]>
    {[ "extras" := VList [extra "theme" "env"; extra "uri" "";
                          extra "uri" "http://later.org/1"] ]}.

Definition resource_r1_d1 : gmap string value :=
  <[ "id" := VStr "r1" ]> {[ "package_id" := VStr "d1" ]}.

Definition resource_r1 : gmap string value := {[ "id" := VStr "r1" ]}.

Definition resource_d1 : gmap string value := {[ "package_id" := VStr "d1" ]}.

(** ** The scan of [extras], without the monad

    What a [for] loop over [v] visits, and what the loop of [dataset_uri] and
    of [publisher_uri_from_dataset_dict] leaves in [uri], as plain results:
    neither touches the state. *)

Definition elements (v : value) : result (list value) :=
  match v with
  | VList l => Ok l
  | VStr s => Ok (chars_of s)
  | VDict d => Ok (VStr <$> (map_to_list d).*1)
  | VNone => Raise TypeError
  end.

Fixpoint scan (name : string) (extras : list value) (uri : value)
  : result value :=
  match extras with
  | [] => Ok uri
  | VDict e :: rest =>
      match e !! "key" with
      | None => Raise (KeyError "key")
      | Some k =>
          if eq_str k name then
            match e !! "value" with
            | Some v => Ok v
            | None => Raise (KeyError "value")
            end
          else scan name rest uri
      end
  | _ :: _ => Raise TypeError
  end.

(** Steps 1 and 2 together: field [key], then the entries named [name]. *)
Definition scanned (key name : string) (d : gmap string value) : result value :=
  match elements (dict_get_default d "extras" (VList [])) with
  | Ok extras => scan name extras (dict_get d key)
  | Raise e => Raise e
  end.

(** ** Changing the configuration *)

Definition set_base_uri (base : string) (E : Env) : Env :=
  {| config := <[ "ckanext.dcat.base_uri" := base ]> (config E);
     Resource_get := Resource_get E;
     uuid4 := uuid4 E;
     str_compound := str_compound E |}.

Fixpoint slashes (n : nat) : string :=
  match n with
  | O => EmptyString
  | S k => String "/" (slashes k)
  end.

(** The round trip of an endpoint format through rdflib's name for it. *)
Definition endpoint_round_trip (f : string) : string :=
  rdflib_to_url_format (url_to_rdflib_format f).

(** ** What a call may do to the state

    [st'] comes from [st] by appending at most [n] log entries and drawing at
    most as many UUIDs as entries were appended. *)
Definition effects (n : nat) (st st' : state) : Prop :=
  exists l : list (level * string),
    log st' = (log st ++ l)%list /\
    uuid_count st <= uuid_count st' /\
    uuid_count st' <= uuid_count st + length l /\
    length l <= n.

(** An environment without configuration whose legacy table knows the
    resource [r1] of the dataset [d1]. *)
Definition env_legacy : Env :=
  {| config := ∅;
     Resource_get := fun id =>
       if eq_str id "r1" then Some {| get_package_id := VStr "d1" |} else None;
     uuid4 := fun n => "uuid-" +:+ pretty n;
     str_compound := fun _ => "" |}.

Definition dataset_uri_only : gmap string value :=
  <[ "uri" := VStr "http://x/1" ]> {[ "extras" := VNone ]}.

Definition dataset_two_extras : gmap string value :=
  <[ "id" := VStr "abc" ]>
    {[ "extras" := VList [extra "theme" "env"; extra "uri" "http://first.org/1";
                          VNone] ]}.

Definition dataset_empty_pubisher : gmap string value :=
  {[ "pubisher_uri" := VStr "" ]}.

Definition dataset_org_no_id : gmap string value :=
  {[ "organization" := VDict {[ "name" := VStr "org1" ]} ]}.

(** * Properties *)

#[local] Arguments String.append !_ _ / : simpl nomatch.

Ltac other_format f Hf :=
  repeat match goal with
    | |- context [String.eqb f ?s] =>
        destruct (String.eqb_spec f s) as [->|_];
        [exfalso; apply Hf; rewrite !elem_of_cons; tauto|];
        cbn [orb]
    end.

(** ** Strings *)

Lemma prefix_char (c a : ascii) (s : string) :
  String.prefix (String c EmptyString) (String a s) = Ascii.eqb a c.
Proof.
  simpl. destruct (ascii_dec c a) as [->|Hne].
  - rewrite Ascii.eqb_refl. by destruct s.
  - symmetry. apply Ascii.eqb_neq. congruence.
Qed.

Lemma replace_char_filter (c : ascii) (s : string) :
  replace (String c EmptyString) "" s =
  string_of_list_ascii
    (List.filter (fun a => negb (Ascii.eqb a c)) (list_ascii_of_string s)).
Proof.
  unfold replace. induction s as [|a s IH]; [done|].
  cbn [replace_from]. rewrite prefix_char.
  cbn [list_ascii_of_string List.filter String.length Nat.sub].
  destruct (Ascii.eqb a c); cbn [negb]; [exact IH|].
  cbn [string_of_list_ascii]. by rewrite IH.
Qed.

Lemma replace_braces (s : string) :
  replace "}" "" (replace "{" "" s) = without_braces s.
Proof.
  rewrite !replace_char_filter, list_ascii_of_string_of_list_ascii.
  unfold without_braces. f_equal.
  induction (list_ascii_of_string s) as [|a l IH]; [done|].
  cbn [List.filter].
  destruct (Ascii.eqb a "{") eqn:H1; cbn [negb orb]; [exact IH|].
  cbn [List.filter]. destruct (Ascii.eqb a "}"); cbn [negb]; [exact IH|].
  by rewrite IH.
Qed.

(** [rstrip] returns a prefix of its argument, removes only characters of
    [chars], and leaves none of them at the end. *)
Lemma rstrip_decompose (chars s : string) :
  exists t : string,
    s = rstrip chars s +:+ t /\
    (forall c : ascii, In c (list_ascii_of_string t) -> str_contains c chars = true).
Proof.
  induction s as [|a s (t & Hs & Ht)].
  - exists "". by split.
  - cbn [rstrip]. destruct (rstrip chars s) as [|b r] eqn:Hr.
    + simpl in Hs. subst t. destruct (str_contains a chars) eqn:Ha.
      * exists (String a s). split; [done|].
        intros c [<-|Hc]; [done|]. by apply Ht.
      * by exists s.
    + exists t. split; [|done]. simpl. simpl in Hs. by rewrite <- Hs.
Qed.

Lemma rstrip_last (chars s r : string) (c : ascii) :
  rstrip chars s = r +:+ String c EmptyString -> str_contains c chars = false.
Proof.
  revert r. induction s as [|a s IH]; intros r.
  - by destruct r.
  - cbn [rstrip]. destruct (rstrip chars s) as [|b q] eqn:Hq.
    + destruct (str_contains a chars) eqn:Ha.
      * by destruct r.
      * destruct r as [|x [|y r]]; simpl; intros [=]; by subst.
    + destruct r as [|x r]; simpl.
      * intros [=].
      * intros [= -> Hr]. by apply (IH r).
Qed.

(** ** Truthiness of optional strings *)

Lemma nonempty_Some (v : value) (s : string) :
  nonempty v = Some s -> v = VStr s /\ truthy v = true.
Proof. destruct v as [|[|a t]| |]; simpl; intros [=]; by subst. Qed.

Lemma nonempty_None (v : value) :
  is_opt_str v = true -> nonempty v = None -> truthy v = false.
Proof. by destruct v as [|[|a t]| |]. Qed.

Lemma truthy_nonempty (v : value) :
  is_opt_str v = true -> truthy v = true -> exists s, nonempty v = Some s.
Proof. destruct v as [|[|a t]| |]; simpl; try done. by eexists. Qed.

Lemma truthy_append (a b : string) :
  truthy (VStr b) = true -> truthy (VStr (a +:+ b)) = true.
Proof. destruct a; [done|]. by destruct b. Qed.

Lemma field_Some (d : gmap string value) (k s : string) :
  field d k = Some s ->
  d !! k = Some (VStr s) /\ dict_get d k = VStr s /\ truthy (VStr s) = true.
Proof.
  unfold field, dict_get. destruct (d !! k) as [v|]; [|done].
  intros [-> Ht]%nonempty_Some. done.
Qed.

Lemma field_None (d : gmap string value) (k : string) :
  opt_str_field d k = true -> field d k = None ->
  truthy (dict_get d k) = false.
Proof.
  unfold opt_str_field, field, dict_get. destruct (d !! k) as [v|]; [|done].
  apply nonempty_None.
Qed.

(** ** The scan of [extras] *)

Lemma is_extra_inv (x : value) :
  is_extra x = true ->
  exists e k v, x = VDict e /\ e !! "key" = Some (VStr k) /\
                e !! "value" = Some v /\ is_opt_str v = true.
Proof.
  destruct x as [| | |e]; try done. simpl.
  destruct (e !! "key") as [[|k| |]|] eqn:Hk; try done.
  destruct (e !! "value") as [v|] eqn:Hv; try done.
  intros Hs. by exists e, k, v.
Qed.

Lemma extras_loop_records (name : string) (l : list value) (uri : value)
    (st : state) :
  forallb is_extra l = true ->
  extras_loop name l uri st =
  (Ok (default uri (first_extra_value name l)), st).
Proof.
  unfold first_extra_value. induction l as [|x l IH]; [done|].
  cbn [forallb]. intros [Hx Hl]%andb_prop.
  destruct (is_extra_inv x Hx) as (e & k & v & -> & Hk & Hv & _).
  cbn [extras_loop List.find has_key]. unfold bind, getitem, dict_getitem.
  rewrite Hk. cbn [ret eq_str]. destruct (String.eqb k name).
  - by rewrite Hv.
  - by apply IH.
Qed.

Lemma first_extra_value_opt_str (name : string) (l : list value) (v : value) :
  forallb is_extra l = true ->
  first_extra_value name l = Some v -> is_opt_str v = true.
Proof.
  unfold first_extra_value. induction l as [|x l IH]; [done|].
  cbn [forallb List.find]. intros [Hx Hl]%andb_prop.
  destruct (has_key name x); [|by apply IH].
  destruct (is_extra_inv x Hx) as (e & k & w & -> & _ & Hv & Hw).
  rewrite Hv. by intros [= <-].
Qed.

Lemma iter_extras (d : gmap string value) (st : state) :
  extras_ok d = true ->
  iter (dict_get_default d "extras" (VList [])) st = (Ok (extras_of d), st) /\
  forallb is_extra (extras_of d) = true.
Proof.
  unfold extras_ok, dict_get_default, extras_of.
  by destruct (d !! "extras") as [[| |l|]|].
Qed.

(** ** The catalog URI *)

Lemma config_get_setting (E : Env) (k : string) :
  match setting E k with
  | Some s => config_get E k = VStr s /\ truthy (VStr s) = true
  | None => truthy (config_get E k) = false
  end.
Proof.
  unfold setting, config_get. by destruct (config E !! k) as [[|a s]|].
Qed.

Lemma catalog_uri_chain (E : Env) (st : state) :
  catalog_uri E st =
  match setting E "ckanext.dcat.base_uri" with
  | Some uri => (Ok (VStr uri), st)
  | None =>
      match setting E "ckan.site_url" with
      | Some uri => (Ok (VStr uri), st)
      | None =>
          match setting E "app_instance_uuid" with
          | Some app_uuid =>
              (Ok (VStr ("http://" +:+ without_braces app_uuid)),
               logged CRITICAL app_id_warning st)
          | None =>
              (Ok (VStr ("http://" +:+ uuid4 E (uuid_count st))),
               logged CRITICAL random_id_warning (fresh st))
          end
      end
  end.
Proof.
  unfold catalog_uri. cbv zeta.
  pose proof (config_get_setting E "ckanext.dcat.base_uri") as H1.
  destruct (setting E "ckanext.dcat.base_uri") as [u|].
  { destruct H1 as [Hc Ht]. rewrite Hc, Ht. cbn [negb]. by rewrite Ht. }
  rewrite H1. cbn [negb].
  pose proof (config_get_setting E "ckan.site_url") as H2.
  destruct (setting E "ckan.site_url") as [u|].
  { destruct H2 as [Hc Ht]. by rewrite Hc, Ht. }
  rewrite H2. cbn [negb].
  pose proof (config_get_setting E "app_instance_uuid") as H3.
  destruct (setting E "app_instance_uuid") as [a|].
  - destruct H3 as [Hc Ht]. rewrite Hc, Ht.
    unfold bind, method_replace, ret, str_add, log_write.
    by rewrite replace_braces.
  - by rewrite H3.
Qed.

Lemma catalog_uri_returns (E : Env) (st : state) :
  exists c st', catalog_uri E st = (Ok (VStr c), st').
Proof.
  rewrite catalog_uri_chain.
  destruct (setting E "ckanext.dcat.base_uri"); [by eauto|].
  destruct (setting E "ckan.site_url"); [by eauto|].
  destruct (setting E "app_instance_uuid"); by eauto.
Qed.

(** C2: [catalog_uri] takes no input, never raises and returns the first
    match of: the non-empty [ckanext.dcat.base_uri] option, returned as it is
    whatever the other options hold; the non-empty [ckan.site_url] option;
    ["http://"] followed by the non-empty [app_instance_uuid] option without
    its braces; ["http://"] followed by a fresh UUID.  The last two log at
    critical level. *)
Theorem catalog_uri_first_match (E : Env) (st : state) :
  (exists c st', catalog_uri E st = (Ok (VStr c), st')) /\
  catalog_uri E st =
  match setting E "ckanext.dcat.base_uri" with
  | Some uri => (Ok (VStr uri), st)
  | None =>
      match setting E "ckan.site_url" with
      | Some uri => (Ok (VStr uri), st)
      | None =>
          match setting E "app_instance_uuid" with
          | Some app_uuid =>
              (Ok (VStr ("http://" +:+ without_braces app_uuid)),
               logged CRITICAL app_id_warning st)
          | None =>
              (Ok (VStr ("http://" +:+ uuid4 E (uuid_count st))),
               logged CRITICAL random_id_warning (fresh st))
          end
      end
  end.
Proof. split; [apply catalog_uri_returns | apply catalog_uri_chain]. Qed.

(** ** Running the monad *)

Lemma bind_ret {A B} (a : A) (k : A -> M B) (st : state) :
  bind (ret a) k st = k a st.
Proof. done. Qed.

Lemma bind_Ok {A B} (m : M A) (k : A -> M B) (st st' : state) (a : A) :
  m st = (Ok a, st') -> bind m k st = k a st'.
Proof. unfold bind. by intros ->. Qed.

Lemma bind_Raise {A B} (m : M A) (k : A -> M B) (st st' : state) (e : exn) :
  m st = (Raise e, st') -> bind m k st = (Raise e, st').
Proof. unfold bind. by intros ->. Qed.

Lemma bind_assoc {A B C} (m : M A) (f : A -> M B) (g : B -> M C) (st : state) :
  bind (bind m f) g st = bind m (fun x => bind (f x) g) st.
Proof. unfold bind. by destruct (m st) as [[a|e] st']. Qed.

Lemma dict_getitem_Some (d : gmap string value) (k : string) (v : value)
    (st : state) :
  d !! k = Some v -> dict_getitem d k st = (Ok v, st).
Proof. unfold dict_getitem. by intros ->. Qed.

Lemma dict_getitem_None (d : gmap string value) (k : string) (st : state) :
  d !! k = None -> dict_getitem d k st = (Raise (KeyError k), st).
Proof. unfold dict_getitem. by intros ->. Qed.

(** ** The dataset URI *)

Lemma dataset_record_inv (d : gmap string value) :
  dataset_record d = true ->
  opt_str_field d "uri" = true /\ opt_str_field d "id" = true /\
  opt_str_field d "pubisher_uri" = true /\
  extras_ok d = true /\ organization_ok d = true.
Proof.
  unfold dataset_record. rewrite !andb_true_iff. tauto.
Qed.

(** C1: for every dataset record, [dataset_uri] never raises and returns the
    string of the first step that matches: the non-empty [uri] field; the
    non-empty [value] of the first [extras] entry whose [key] is ["uri"]; the
    catalog URI without its trailing slashes, ["/dataset/"] and the non-empty
    [id] field; the same prefix and a fresh UUID, with a warning logged.  The
    prefix never ends in a slash, so none is doubled before ["/dataset/"]. *)
Theorem dataset_uri_fallback_chain (E : Env) (d : gmap string value)
    (st : state) :
  dataset_record d = true ->
  exists c st1,
    catalog_uri E st = (Ok (VStr c), st1) /\
    (forall p : string, rstrip "/" c <> p +:+ "/") /\
    dataset_uri E d st =
    match field d "uri" with
    | Some uri => (Ok (VStr uri), st)
    | None =>
        match first_extra "uri" d with
        | Some uri => (Ok (VStr uri), st)
        | None =>
            match field d "id" with
            | Some id =>
                (Ok (VStr (rstrip "/" c +:+ "/dataset/" +:+ id)), st1)
            | None =>
                (Ok (VStr (rstrip "/" c +:+ "/dataset/" +:+
                           uuid4 E (uuid_count st1))),
                 logged WARNING "Using a random id for dataset URI" (fresh st1))
            end
        end
    end.
Proof.
  intros (Huri & Hid & _ & Hext & _)%dataset_record_inv.
  destruct (catalog_uri_returns E st) as (c & st1 & Hc). exists c, st1.
  split; [done|]. split.
  { intros p Hp. by apply rstrip_last in Hp. }
  unfold dataset_uri. cbv zeta.
  destruct (field d "uri") as [u|] eqn:Hf.
  { apply field_Some in Hf as (_ & Hg & Ht). rewrite Hg, Ht. cbn [negb].
    rewrite bind_ret, Ht. cbn [negb andb]. by rewrite bind_ret, Ht. }
  rewrite (field_None _ _ Huri Hf). cbn [negb].
  destruct (iter_extras d st Hext) as [Hit Hall].
  rewrite bind_assoc, (bind_Ok _ _ _ _ _ Hit).
  rewrite (bind_Ok _ _ _ _ _ (extras_loop_records _ _ _ _ Hall)).
  unfold first_extra.
  set (u1 := default (dict_get d "uri") (first_extra_value "uri" (extras_of d))).
  assert (Hu1 :
    match match first_extra_value "uri" (extras_of d) with
          | Some v => nonempty v
          | None => None
          end with
    | Some s => u1 = VStr s /\ truthy (VStr s) = true
    | None => truthy u1 = false
    end).
  { subst u1. destruct (first_extra_value "uri" (extras_of d)) as [v|] eqn:Hv.
    - destruct (nonempty v) as [s|] eqn:Hn.
      + by apply nonempty_Some in Hn as [-> Ht].
      + apply nonempty_None; [|done].
        by apply (first_extra_value_opt_str "uri" (extras_of d)).
    - by apply field_None. }
  clearbody u1.
  destruct (match first_extra_value "uri" (extras_of d) with
            | Some v => nonempty v
            | None => None
            end) as [s|].
  { destruct Hu1 as [-> Ht]. rewrite Ht. cbn [negb andb].
    by rewrite bind_ret, Ht. }
  rewrite Hu1. cbn [negb andb].
  destruct (field d "id") as [i|] eqn:Hi.
  - apply field_Some in Hi as (Hl & Hg & Ht). rewrite Hg, Ht.
    rewrite bind_assoc, (bind_Ok _ _ _ _ _ Hc). cbn [method_rstrip].
    rewrite bind_assoc, bind_ret, bind_assoc.
    rewrite (bind_Ok _ _ _ _ _ (dict_getitem_Some _ _ _ _ Hl)).
    rewrite bind_ret. cbn [str]. by rewrite truthy_append.
  - rewrite (field_None _ _ Hid Hi), bind_ret, Hu1. cbn [negb].
    rewrite (bind_Ok _ _ _ _ _ Hc). cbn [method_rstrip]. by rewrite bind_ret.
Qed.

(** ** The resource URI *)

Lemma resource_record_inv (r : gmap string value) :
  resource_record r = true ->
  opt_str_field r "uri" = true /\ opt_str_field r "id" = true /\
  opt_str_field r "package_id" = true.
Proof.
  unfold resource_record. rewrite !andb_true_iff. tauto.
Qed.

Lemma dataset_id_from_resource_id (E : Env) (r : gmap string value)
    (id : value) (st : state) :
  r !! "id" = Some id ->
  dataset_id_from_resource E r st = (Ok (owner E r id), st).
Proof.
  intros Hid. unfold dataset_id_from_resource, owner. cbv zeta.
  destruct (truthy (dict_get r "package_id")); [done|].
  rewrite (bind_Ok _ _ _ _ _ (dict_getitem_Some _ _ _ _ Hid)).
  by destruct (Resource_get E id).
Qed.

Lemma resource_uri_with_id (E : Env) (r : gmap string value) (id : value)
    (st st1 : state) (c : string) :
  truthy (dict_get r "uri") = false ->
  r !! "id" = Some id ->
  catalog_uri E st = (Ok (VStr c), st1) ->
  resource_uri E r st =
  (Ok (VStr (rstrip "/" c +:+ "/dataset/" +:+ str E (owner E r id) +:+
             "/resource/" +:+ str E id)), st1).
Proof.
  intros Hu Hid Hc. unfold resource_uri. cbv zeta. rewrite Hu. cbn [negb].
  rewrite (bind_Ok _ _ _ _ _ (dataset_id_from_resource_id _ _ _ _ Hid)).
  rewrite (bind_Ok _ _ _ _ _ Hc). cbn [method_rstrip]. rewrite bind_ret.
  by rewrite (bind_Ok _ _ _ _ _ (dict_getitem_Some _ _ _ _ Hid)).
Qed.

Lemma resource_uri_without_id (E : Env) (r : gmap string value) (st : state) :
  truthy (dict_get r "uri") = false ->
  r !! "id" = None ->
  exists st', resource_uri E r st = (Raise (KeyError "id"), st').
Proof.
  intros Hu Hid. unfold resource_uri. cbv zeta. rewrite Hu. cbn [negb].
  unfold dataset_id_from_resource. cbv zeta.
  destruct (truthy (dict_get r "package_id")).
  - destruct (catalog_uri_returns E st) as (c & st1 & Hc). exists st1.
    rewrite bind_ret, (bind_Ok _ _ _ _ _ Hc). cbn [method_rstrip].
    rewrite bind_ret.
    by rewrite (bind_Raise _ _ _ _ _ (dict_getitem_None _ _ _ Hid)).
  - exists st. apply bind_Raise.
    by rewrite (bind_Raise _ _ _ _ _ (dict_getitem_None _ _ _ Hid)).
Qed.

(** C3, as the code has it: for every resource record, [resource_uri] raises
    [KeyError] for ["id"] exactly when the record has no usable [uri] field
    and no [id] key, whether or not it has a [package_id]; in every other case
    it returns a string.  The exception is the result of the call: nothing
    catches it. *)
Theorem resource_uri_key_error (E : Env) (r : gmap string value) (st : state) :
  resource_record r = true ->
  match field r "uri", r !! "id" with
  | None, None => exists st', resource_uri E r st = (Raise (KeyError "id"), st')
  | _, _ => exists s st', resource_uri E r st = (Ok (VStr s), st')
  end.
Proof.
  intros (Huri & _ & _)%resource_record_inv.
  destruct (field r "uri") as [u|] eqn:Hf.
  - apply field_Some in Hf as (_ & Hg & Ht). exists u, st.
    unfold resource_uri. cbv zeta. by rewrite Hg, Ht.
  - pose proof (field_None _ _ Huri Hf) as Hu.
    destruct (r !! "id") as [id|] eqn:Hid.
    + destruct (catalog_uri_returns E st) as (c & st1 & Hc).
      rewrite (resource_uri_with_id E r id st st1 c Hu Hid Hc). by eauto.
    + by apply resource_uri_without_id.
Qed.

(** C6: for every resource record with no usable [uri] field, a non-empty
    [package_id] and an [id] field, [resource_uri] returns the catalog URI
    without its trailing slashes, ["/dataset/"], the [package_id],
    ["/resource/"] and the [id]. *)
Theorem resource_uri_package_id (E : Env) (r : gmap string value)
    (st st1 : state) (c p i : string) :
  truthy (dict_get r "uri") = false ->
  field r "package_id" = Some p ->
  r !! "id" = Some (VStr i) ->
  catalog_uri E st = (Ok (VStr c), st1) ->
  resource_uri E r st =
  (Ok (VStr (rstrip "/" c +:+ "/dataset/" +:+ p +:+ "/resource/" +:+ i)), st1).
Proof.
  intros Hu (_ & Hg & Ht)%field_Some Hid Hc.
  rewrite (resource_uri_with_id E r (VStr i) st st1 c Hu Hid Hc).
  unfold owner. by rewrite Hg, Ht.
Qed.

(** C9: for every resource record with no usable [uri] field and no
    [package_id] but with an [id], when the legacy lookup finds no resource
    for that id, [resource_uri] neither raises nor returns [None]: the absent
    dataset id is rendered as ["None"] inside the URI. *)
Theorem resource_uri_unknown_dataset (E : Env) (r : gmap string value)
    (st st1 : state) (c i : string) :
  truthy (dict_get r "uri") = false ->
  truthy (dict_get r "package_id") = false ->
  r !! "id" = Some (VStr i) ->
  Resource_get E (VStr i) = None ->
  catalog_uri E st = (Ok (VStr c), st1) ->
  resource_uri E r st =
  (Ok (VStr (rstrip "/" c +:+ "/dataset/None/resource/" +:+ i)), st1).
Proof.
  intros Hu Hp Hid Hget Hc.
  rewrite (resource_uri_with_id E r (VStr i) st st1 c Hu Hid Hc).
  unfold owner. by rewrite Hp, Hget.
Qed.

(** ** The publisher URI *)

Lemma truthy_dict_lookup (o : gmap string value) (k : string) (v : value) :
  o !! k = Some v -> truthy (VDict o) = true.
Proof.
  intros Hk. cbn [truthy]. destruct (map_to_list o) as [|x l] eqn:Hl; [|done].
  apply map_to_list_empty_iff in Hl. subst o. by rewrite lookup_empty in Hk.
Qed.

Lemma first_extra_value_no_key (name : string) (l : list value) :
  List.find (has_key name) l = None -> first_extra_value name l = None.
Proof. unfold first_extra_value. by intros ->. Qed.

(** What steps 1 and 2 of [publisher_uri_from_dataset_dict] leave in [uri]. *)
Lemma publisher_uri_steps (E : Env) (d : gmap string value) (st : state) :
  dataset_record d = true ->
  let u1 := default (dict_get d "pubisher_uri")
              (first_extra_value "publisher_uri" (extras_of d)) in
  is_opt_str u1 = true /\
  publisher_uri_from_dataset_dict E d st =
  match field d "pubisher_uri" with
  | Some uri => (Ok (VStr uri), st)
  | None =>
      match first_extra "publisher_uri" d with
      | Some uri => (Ok (VStr uri), st)
      | None =>
          if truthy (dict_get d "organization") then
            bind (catalog_uri E) (fun c =>
            bind (method_rstrip c "/") (fun base =>
            bind (dict_getitem d "organization") (fun organization =>
            bind (getitem organization "id") (fun id =>
            ret (VStr (str E base +:+ "/organization/" +:+ str E id)))))) st
          else (Ok u1, st)
      end
  end.
Proof.
  intros (_ & _ & Hpub & Hext & _)%dataset_record_inv u1.
  destruct (iter_extras d st Hext) as [Hit Hall].
  assert (Hopt : is_opt_str u1 = true).
  { subst u1.
    destruct (first_extra_value "publisher_uri" (extras_of d)) as [v|] eqn:Hv.
    - by apply (first_extra_value_opt_str "publisher_uri" (extras_of d)).
    - unfold opt_str_field, dict_get in *.
      by destruct (d !! "pubisher_uri"). }
  split; [done|]. unfold publisher_uri_from_dataset_dict. cbv zeta.
  destruct (field d "pubisher_uri") as [u|] eqn:Hf.
  { apply field_Some in Hf as (_ & Hg & Ht). rewrite Hg, Ht. cbn [negb].
    by rewrite bind_ret, Ht. }
  rewrite (field_None _ _ Hpub Hf). cbn [negb].
  rewrite bind_assoc, (bind_Ok _ _ _ _ _ Hit).
  rewrite (bind_Ok _ _ _ _ _ (extras_loop_records _ _ _ _ Hall)).
  fold u1. unfold first_extra.
  assert (Hu1 :
    match match first_extra_value "publisher_uri" (extras_of d) with
          | Some v => nonempty v
          | None => None
          end with
    | Some s => u1 = VStr s /\ truthy (VStr s) = true
    | None => truthy u1 = false
    end).
  { subst u1.
    destruct (first_extra_value "publisher_uri" (extras_of d)) as [v|] eqn:Hv.
    - destruct (nonempty v) as [s|] eqn:Hn.
      + by apply nonempty_Some in Hn as [-> Ht].
      + by apply nonempty_None.
    - by apply field_None. }
  clearbody u1.
  destruct (match first_extra_value "publisher_uri" (extras_of d) with
            | Some v => nonempty v
            | None => None
            end) as [s|].
  { destruct Hu1 as [-> Ht]. by rewrite Ht. }
  rewrite Hu1. cbn [negb andb].
  by destruct (truthy (dict_get d "organization")).
Qed.

(** C4: step 1 of [publisher_uri_from_dataset_dict] reads the key
    [pubisher_uri].  A dataset record whose only relevant field is a top-level
    [publisher_uri] (no [pubisher_uri] key, no [extras] entry with key
    ["publisher_uri"], no [organization]) gets [None]; a record with a
    non-empty [pubisher_uri] field gets that value, as the first match. *)
Theorem publisher_uri_misspelled_key (E : Env) (d : gmap string value)
    (st : state) :
  dataset_record d = true ->
  (forall p : string,
     d !! "publisher_uri" = Some (VStr p) ->
     d !! "pubisher_uri" = None ->
     List.find (has_key "publisher_uri") (extras_of d) = None ->
     d !! "organization" = None ->
     publisher_uri_from_dataset_dict E d st = (Ok VNone, st)) /\
  (forall u : string,
     field d "pubisher_uri" = Some u ->
     publisher_uri_from_dataset_dict E d st = (Ok (VStr u), st)).
Proof.
  intros Hwf. destruct (publisher_uri_steps E d st Hwf) as [_ ->]. split.
  - intros p _ Hmis Hex Horg. unfold field, first_extra, dict_get.
    rewrite Hmis, Horg, (first_extra_value_no_key _ _ Hex). done.
  - by intros u ->.
Qed.

(** C7: for every dataset record, [publisher_uri_from_dataset_dict] never
    raises and returns a string or [None].  When steps 1 and 2 produce nothing
    and the record has an organization, it returns the catalog URI without its
    trailing slashes, ["/organization/"] and the organization's [id]; when no
    step applies (no field, no [extras] entry with the key, no organization)
    it returns [None]. *)
Theorem publisher_uri_never_raises (E : Env) (d : gmap string value)
    (st : state) :
  dataset_record d = true ->
  exists c st1,
    catalog_uri E st = (Ok (VStr c), st1) /\
    (exists v st',
       publisher_uri_from_dataset_dict E d st = (Ok v, st') /\
       is_opt_str v = true) /\
    (forall (o : gmap string value) (i : string),
       field d "pubisher_uri" = None ->
       first_extra "publisher_uri" d = None ->
       d !! "organization" = Some (VDict o) ->
       o !! "id" = Some (VStr i) ->
       publisher_uri_from_dataset_dict E d st =
       (Ok (VStr (rstrip "/" c +:+ "/organization/" +:+ i)), st1)) /\
    (dict_get d "pubisher_uri" = VNone ->
     List.find (has_key "publisher_uri") (extras_of d) = None ->
     truthy (dict_get d "organization") = false ->
     publisher_uri_from_dataset_dict E d st = (Ok VNone, st)).
Proof.
  intros Hwf. destruct (catalog_uri_returns E st) as (c & st1 & Hc).
  exists c, st1. split; [done|].
  destruct (publisher_uri_steps E d st Hwf) as [Hopt ->].
  apply dataset_record_inv in Hwf as (_ & _ & _ & _ & Horg).
  assert (Hrun : forall (o : gmap string value) (i : string),
    d !! "organization" = Some (VDict o) -> o !! "id" = Some (VStr i) ->
    truthy (dict_get d "organization") = true /\
    bind (catalog_uri E) (fun c =>
    bind (method_rstrip c "/") (fun base =>
    bind (dict_getitem d "organization") (fun organization =>
    bind (getitem organization "id") (fun id =>
    ret (VStr (str E base +:+ "/organization/" +:+ str E id)))))) st =
    (Ok (VStr (rstrip "/" c +:+ "/organization/" +:+ i)), st1)).
  { intros o i Ho Hi. split.
    - unfold dict_get. rewrite Ho. by apply (truthy_dict_lookup o "id" (VStr i)).
    - rewrite (bind_Ok _ _ _ _ _ Hc). cbn [method_rstrip]. rewrite bind_ret.
      rewrite (bind_Ok _ _ _ _ _ (dict_getitem_Some _ _ _ _ Ho)).
      cbn [getitem].
      by rewrite (bind_Ok _ _ _ _ _ (dict_getitem_Some _ _ _ _ Hi)). }
  split; [|split].
  - destruct (field d "pubisher_uri") as [u|]; [by eauto|].
    destruct (first_extra "publisher_uri" d) as [u|]; [by eauto|].
    destruct (truthy (dict_get d "organization")) eqn:Ht; [|by eauto].
    unfold organization_ok in Horg. unfold dict_get in Ht.
    destruct (d !! "organization") as [[| | |o]|] eqn:Ho; try done.
    destruct (o !! "id") as [[|i| |]|] eqn:Hi; try done.
    destruct (Hrun o i eq_refl Hi) as [_ ->]. by eauto.
  - intros o i -> -> Ho Hi. by destruct (Hrun o i Ho Hi) as [-> ->].
  - intros Hmis Hex Hno. unfold field, first_extra.
    rewrite (first_extra_value_no_key _ _ Hex), Hno, Hmis.
    unfold dict_get in Hmis. destruct (d !! "pubisher_uri") as [v|]; [|done].
    simpl in Hmis. by subst v.
Qed.

(** ** An [extras] entry with an empty value *)

Lemma extras_loop_stops (name : string) (pre post : list value)
    (e : gmap string value) (v uri : value) (st : state) :
  forallb (fun x => is_extra x && negb (has_key name x)) pre = true ->
  e !! "key" = Some (VStr name) ->
  e !! "value" = Some v ->
  extras_loop name (pre ++ VDict e :: post) uri st = (Ok v, st).
Proof.
  intros Hpre Hk Hv. induction pre as [|x pre IH].
  - cbn [app extras_loop getitem].
    rewrite (bind_Ok _ _ _ _ _ (dict_getitem_Some _ _ _ _ Hk)).
    cbn [eq_str]. rewrite String.eqb_refl.
    by apply dict_getitem_Some.
  - cbn [forallb] in Hpre.
    apply andb_prop in Hpre as [[Hx Hn]%andb_prop Hpre].
    destruct (is_extra_inv x Hx) as (m & k & w & -> & Hmk & _ & _).
    cbn [has_key] in Hn. rewrite Hmk in Hn.
    change ((VDict m :: pre) ++ VDict e :: post)%list
      with (VDict m :: (pre ++ VDict e :: post))%list.
    cbn [extras_loop getitem].
    rewrite (bind_Ok _ _ _ _ _ (dict_getitem_Some _ _ _ _ Hmk)).
    cbn [eq_str]. apply negb_true_iff in Hn. rewrite Hn. by apply IH.
Qed.

Lemma truthy_dict_get (d : gmap string value) (k : string) :
  truthy (dict_get d k) = true -> d !! k = Some (dict_get d k).
Proof. unfold dict_get. by destruct (d !! k). Qed.

(** C10: in [dataset_uri] the scan of [extras] stops at the first entry whose
    [key] is ["uri"], also when its [value] is empty.  The empty value is no
    match: the function goes on to the URI built from the [id], or from a
    fresh UUID, and whatever comes later in [extras] is never looked at. *)
Theorem dataset_uri_empty_extra_stops (E : Env) (d e : gmap string value)
    (pre post : list value) (v : value) (st st1 : state) (c : string) :
  truthy (dict_get d "uri") = false ->
  d !! "extras" = Some (VList (pre ++ VDict e :: post)) ->
  forallb (fun x => is_extra x && negb (has_key "uri" x)) pre = true ->
  e !! "key" = Some (VStr "uri") ->
  e !! "value" = Some v ->
  truthy v = false ->
  catalog_uri E st = (Ok (VStr c), st1) ->
  dataset_uri E d st =
  if truthy (dict_get d "id")
  then (Ok (VStr (rstrip "/" c +:+ "/dataset/" +:+ str E (dict_get d "id"))),
        st1)
  else (Ok (VStr (rstrip "/" c +:+ "/dataset/" +:+ uuid4 E (uuid_count st1))),
        logged WARNING "Using a random id for dataset URI" (fresh st1)).
Proof.
  intros Hu Hex Hpre Hk Hv Hf Hc. unfold dataset_uri. cbv zeta.
  rewrite Hu. cbn [negb].
  assert (Hit : iter (dict_get_default d "extras" (VList [])) st =
                (Ok (pre ++ VDict e :: post)%list, st)).
  { unfold dict_get_default. by rewrite Hex. }
  rewrite bind_assoc, (bind_Ok _ _ _ _ _ Hit).
  rewrite (bind_Ok _ _ _ _ _ (extras_loop_stops _ _ _ _ _ _ _ Hpre Hk Hv)).
  rewrite Hf. cbn [negb andb].
  destruct (truthy (dict_get d "id")) eqn:Hid.
  - apply truthy_dict_get in Hid.
    rewrite bind_assoc, (bind_Ok _ _ _ _ _ Hc). cbn [method_rstrip].
    rewrite bind_assoc, bind_ret, bind_assoc.
    rewrite (bind_Ok _ _ _ _ _ (dict_getitem_Some _ _ _ _ Hid)).
    rewrite bind_ret. cbn [str]. by rewrite truthy_append.
  - rewrite bind_ret, Hf. cbn [negb].
    rewrite (bind_Ok _ _ _ _ _ Hc). cbn [method_rstrip]. by rewrite bind_ret.
Qed.

(** ** The format translators *)

(** C8: the two translators are total on strings.  The forward one sends
    ["ttl"] to ["turtle"], ["rdf"] and ["xml"] to ["pretty-xml"], ["jsonld"]
    to ["json-ld"] and any other string to itself; the reverse one sends
    ["turtle"] to ["ttl"], ["pretty-xml"] to ["xml"], ["json-ld"] to
    ["jsonld"] and any other string to itself. *)
Theorem format_translators_table :
  url_to_rdflib_format "ttl" = "turtle" /\
  url_to_rdflib_format "rdf" = "pretty-xml" /\
  url_to_rdflib_format "xml" = "pretty-xml" /\
  url_to_rdflib_format "jsonld" = "json-ld" /\
  (forall f : string,
     f ∉ ["ttl"; "rdf"; "xml"; "jsonld"] -> url_to_rdflib_format f = f) /\
  rdflib_to_url_format "turtle" = "ttl" /\
  rdflib_to_url_format "pretty-xml" = "xml" /\
  rdflib_to_url_format "json-ld" = "jsonld" /\
  (forall f : string,
     f ∉ ["turtle"; "pretty-xml"; "json-ld"] -> rdflib_to_url_format f = f).
Proof.
  repeat split; try done.
  - intros f Hf. unfold url_to_rdflib_format. cbn [existsb].
    by other_format f Hf.
  - intros f Hf. unfold rdflib_to_url_format. by other_format f Hf.
Qed.

(** C5: the forward translator followed by the reverse one is the identity on
    ["ttl"], on ["jsonld"] and on strings that both leave alone, such as
    ["n3"]; it is not on ["rdf"]: ["rdf"] and ["xml"] both go to
    ["pretty-xml"], which always comes back as ["xml"]. *)
Theorem format_round_trip :
  rdflib_to_url_format (url_to_rdflib_format "ttl") = "ttl" /\
  rdflib_to_url_format (url_to_rdflib_format "jsonld") = "jsonld" /\
  rdflib_to_url_format (url_to_rdflib_format "n3") = "n3" /\
  (forall f : string,
     f ∉ ["rdf"; "turtle"; "pretty-xml"; "json-ld"] ->
     rdflib_to_url_format (url_to_rdflib_format f) = f) /\
  url_to_rdflib_format "rdf" = "pretty-xml" /\
  url_to_rdflib_format "xml" = "pretty-xml" /\
  rdflib_to_url_format (url_to_rdflib_format "rdf") = "xml" /\
  rdflib_to_url_format (url_to_rdflib_format "rdf") <> "rdf" /\
  (forall f : string,
     url_to_rdflib_format f = "pretty-xml" ->
     rdflib_to_url_format (url_to_rdflib_format f) = "xml").
Proof.
  repeat split; try done.
  - intros f Hf. unfold url_to_rdflib_format, rdflib_to_url_format.
    cbn [existsb].
    destruct (String.eqb_spec f "ttl") as [->|_]; [done|].
    destruct (String.eqb_spec f "xml") as [->|_]; [done|].
    destruct (String.eqb_spec f "jsonld") as [->|_]; [done|].
    by other_format f Hf.
  - by intros f ->.
Qed.

(** ** Outside the data model

    The hypothesis [dataset_record] is needed: an [extras] entry without a
    [value], or an organization without an [id], makes the functions raise. *)

Example dataset_uri_extra_without_value :
  dataset_uri (env_of_base "http://cat.org")
    {[ "extras" := VList [VDict {[ "key" := VStr "uri" ]}] ]} st0 =
  (Raise (KeyError "value"), st0).
Proof. vm_compute. done. Qed.

Example publisher_uri_organization_without_id :
  publisher_uri_from_dataset_dict (env_of_base "http://cat.org")
    {[ "organization" := VDict {[ "name" := VStr "org1" ]} ]} st0 =
  (Raise (KeyError "id"), st0).
Proof. vm_compute. done. Qed.

(** ** The theorems at sample inputs *)

Lemma dataset_uri_fallback_chain_witness :
  dataset_record dataset_abc = true /\
  dataset_uri (env_of_base "http://cat.org/") dataset_abc st0 =
  (Ok (VStr "http://cat.org/dataset/abc"), st0).
Proof.
  split; [reflexivity|].
  destruct (dataset_uri_fallback_chain (env_of_base "http://cat.org/")
              dataset_abc st0 eq_refl) as (c & st1 & Hc & _ & Hd).
  vm_compute in Hc. injection Hc as <- <-. exact Hd.
Defined.

Lemma resource_uri_key_error_witness :
  resource_record resource_d1 = true /\
  exists st', resource_uri (env_of_base "http://cat.org") resource_d1 st0 =
              (Raise (KeyError "id"), st').
Proof.
  split; [reflexivity|].
  exact (resource_uri_key_error (env_of_base "http://cat.org") resource_d1 st0
           eq_refl).
Defined.

(** A record with a [package_id] and no [id]: the dataset id is resolved, and
    the call still raises. *)
Lemma resource_d1_raises_key_error :
  resource_record resource_d1 = true /\
  field resource_d1 "uri" = None /\
  field resource_d1 "package_id" = Some "d1" /\
  resource_d1 !! "id" = None /\
  resource_uri (env_of_base "http://cat.org") resource_d1 st0 =
  (Raise (KeyError "id"), st0).
Proof. vm_compute. done. Qed.

Lemma publisher_uri_misspelled_key_witness :
  dataset_record dataset_publisher = true /\
  publisher_uri_from_dataset_dict (env_of_base "http://cat.org")
    dataset_publisher st0 = (Ok VNone, st0).
Proof.
  split; [reflexivity|].
  apply (proj1 (publisher_uri_misspelled_key (env_of_base "http://cat.org")
                  dataset_publisher st0 eq_refl) "http://pub.org");
    reflexivity.
Defined.

Lemma resource_uri_package_id_witness :
  resource_uri (env_of_base "http://cat.org") resource_r1_d1 st0 =
  (Ok (VStr "http://cat.org/dataset/d1/resource/r1"), st0).
Proof.
  apply (resource_uri_package_id (env_of_base "http://cat.org") resource_r1_d1
           st0 st0 "http://cat.org" "d1" "r1"); reflexivity.
Defined.

Lemma publisher_uri_never_raises_witness :
  dataset_record dataset_org1 = true /\
  publisher_uri_from_dataset_dict (env_of_base "http://cat.org") dataset_org1
    st0 = (Ok (VStr "http://cat.org/organization/org1"), st0).
Proof.
  split; [reflexivity|].
  destruct (publisher_uri_never_raises (env_of_base "http://cat.org")
              dataset_org1 st0 eq_refl) as (c & st1 & Hc & _ & Horg & _).
  vm_compute in Hc. injection Hc as <- <-.
  apply (Horg {[ "id" := VStr "org1" ]} "org1"); reflexivity.
Defined.

Lemma resource_uri_unknown_dataset_witness :
  resource_uri (env_of_base "http://cat.org") resource_r1 st0 =
  (Ok (VStr "http://cat.org/dataset/None/resource/r1"), st0).
Proof.
  apply (resource_uri_unknown_dataset (env_of_base "http://cat.org")
           resource_r1 st0 st0 "http://cat.org" "r1"); reflexivity.
Defined.

Lemma dataset_uri_empty_extra_stops_witness :
  dataset_uri (env_of_base "http://cat.org/") dataset_empty_extra st0 =
  (Ok (VStr "http://cat.org/dataset/abc"), st0).
Proof.
  apply (dataset_uri_empty_extra_stops (env_of_base "http://cat.org/")
           dataset_empty_extra
           (<[ "key" := VStr "uri" ]> {[ "value" := VStr "" ]})
           [extra "theme" "env"] [extra "uri" "http://later.org/1"]
           (VStr "") st0 st0 "http://cat.org/"); reflexivity.
Defined.

(** * Further properties *)

Ltac round_trip_yes :=
  split; [intros _|done];
  rewrite !not_elem_of_cons; repeat split; try done; apply not_elem_of_nil.

Ltac round_trip_no :=
  split; [intros H; by vm_compute in H|];
  intros H; exfalso; apply H; rewrite !elem_of_cons; tauto.

(** ** The scan has no effect *)

Lemma iter_elements (v : value) (st : state) : iter v st = (elements v, st).
Proof. by destruct v. Qed.

Lemma extras_loop_scan (name : string) (l : list value) (uri : value)
    (st : state) :
  extras_loop name l uri st = (scan name l uri, st).
Proof.
  induction l as [|x l IH]; [done|].
  destruct x as [| | |e]; try done.
  cbn [extras_loop scan getitem]. unfold bind, dict_getitem.
  destruct (e !! "key") as [k|]; [|done]. cbn [ret].
  destruct (eq_str k name); [|exact IH].
  by destruct (e !! "value").
Qed.

Lemma scan_steps (key name : string) (d : gmap string value) (st : state) :
  bind (iter (dict_get_default d "extras" (VList [])))
    (fun extras => extras_loop name extras (dict_get d key)) st =
  (scanned key name d, st).
Proof.
  unfold bind, scanned. rewrite iter_elements.
  destruct (elements _) as [l|e]; [|done]. apply extras_loop_scan.
Qed.

Lemma scan_raises (name : string) (l : list value) (uri : value) (e : exn) :
  scan name l uri = Raise e ->
  e = TypeError \/ e = KeyError "key" \/ e = KeyError "value".
Proof.
  induction l as [|x l IH]; [done|].
  destruct x as [| | |m]; cbn [scan]; try (intros [= <-]; by eauto).
  destruct (m !! "key") as [k|]; [|intros [= <-]; by eauto].
  destruct (eq_str k name); [|exact IH].
  destruct (m !! "value"); intros [= <-]; by eauto.
Qed.

Lemma scanned_raises (key name : string) (d : gmap string value) (e : exn) :
  scanned key name d = Raise e ->
  e = TypeError \/ e = KeyError "key" \/ e = KeyError "value".
Proof.
  unfold scanned.
  destruct (dict_get_default d "extras" (VList [])) as [|s|l|m]; cbn [elements];
    try apply scan_raises.
  intros [= <-]. by left.
Qed.

Lemma scanned_list (key name : string) (d : gmap string value)
    (l : list value) :
  d !! "extras" = Some (VList l) ->
  scanned key name d = scan name l (dict_get d key).
Proof. unfold scanned, dict_get_default. by intros ->. Qed.

Lemma scanned_no_extras (key name : string) (d : gmap string value) :
  d !! "extras" = None -> scanned key name d = Ok (dict_get d key).
Proof. unfold scanned, dict_get_default. by intros ->. Qed.

Lemma scan_first_match (name : string) (pre post : list value)
    (e : gmap string value) (v uri : value) :
  forallb (fun x => is_extra x && negb (has_key name x)) pre = true ->
  e !! "key" = Some (VStr name) ->
  e !! "value" = Some v ->
  scan name (pre ++ VDict e :: post) uri = Ok v.
Proof.
  intros Hpre Hk Hv.
  pose proof (extras_loop_stops name pre post e v uri
                {| uuid_count := 0; log := [] |} Hpre Hk Hv) as H.
  rewrite extras_loop_scan in H. by injection H.
Qed.

(** ** The shape of [dataset_uri] on any dictionary *)

Lemma dataset_uri_shape (E : Env) (d : gmap string value) (st st1 : state)
    (c : string) :
  catalog_uri E st = (Ok (VStr c), st1) ->
  dataset_uri E d st =
  if truthy (dict_get d "uri") then (Ok (dict_get d "uri"), st)
  else
    match scanned "uri" "uri" d with
    | Raise e => (Raise e, st)
    | Ok u1 =>
        if truthy u1 then (Ok u1, st)
        else if truthy (dict_get d "id") then
          (Ok (VStr (rstrip "/" c +:+ "/dataset/" +:+ str E (dict_get d "id"))),
           st1)
        else
          (Ok (VStr (rstrip "/" c +:+ "/dataset/" +:+ uuid4 E (uuid_count st1))),
           logged WARNING "Using a random id for dataset URI" (fresh st1))
    end.
Proof.
  intros Hc. unfold dataset_uri. cbv zeta.
  destruct (truthy (dict_get d "uri")) eqn:Hu; cbn [negb].
  { rewrite bind_ret, Hu. cbn [negb andb]. by rewrite bind_ret, Hu. }
  destruct (scanned "uri" "uri" d) as [u1|e] eqn:Hs.
  2:{ apply bind_Raise. by rewrite scan_steps, Hs. }
  rewrite (bind_Ok _ _ _ st u1); [|by rewrite scan_steps, Hs].
  destruct (truthy u1) eqn:Hu1; cbn [negb andb].
  { by rewrite bind_ret, Hu1. }
  destruct (truthy (dict_get d "id")) eqn:Hid.
  - apply truthy_dict_get in Hid.
    rewrite bind_assoc, (bind_Ok _ _ _ _ _ Hc). cbn [method_rstrip].
    rewrite bind_assoc, bind_ret, bind_assoc.
    rewrite (bind_Ok _ _ _ _ _ (dict_getitem_Some _ _ _ _ Hid)).
    rewrite bind_ret. cbn [str]. by rewrite truthy_append.
  - rewrite bind_ret, Hu1. cbn [negb].
    rewrite (bind_Ok _ _ _ _ _ Hc). cbn [method_rstrip]. by rewrite bind_ret.
Qed.

(** X2: a usable [uri] field is returned as it is by [dataset_uri] and by
    [resource_uri], whatever else the dictionary holds and whatever the
    configuration: nothing is logged and no UUID is drawn. *)
Theorem usable_uri_is_returned (E : Env) (d : gmap string value) (st : state) :
  truthy (dict_get d "uri") = true ->
  dataset_uri E d st = (Ok (dict_get d "uri"), st) /\
  resource_uri E d st = (Ok (dict_get d "uri"), st).
Proof.
  intros Hu. destruct (catalog_uri_returns E st) as (c & st1 & Hc). split.
  - by rewrite (dataset_uri_shape E d st st1 c Hc), Hu.
  - unfold resource_uri. cbv zeta. by rewrite Hu.
Qed.

(** X13: when the [uri] field is not usable, the first [extras] entry whose
    [key] is ["uri"] and whose [value] is usable gives the result of
    [dataset_uri]: the [id], the configuration and the entries after it, well
    formed or not, play no part. *)
Theorem first_matching_extra_wins (E : Env) (d e : gmap string value)
    (pre post : list value) (v : value) (st : state) :
  truthy (dict_get d "uri") = false ->
  d !! "extras" = Some (VList (pre ++ VDict e :: post)) ->
  forallb (fun x => is_extra x && negb (has_key "uri" x)) pre = true ->
  e !! "key" = Some (VStr "uri") ->
  e !! "value" = Some v ->
  truthy v = true ->
  dataset_uri E d st = (Ok v, st).
Proof.
  intros Hu Hex Hpre Hk Hv Ht.
  destruct (catalog_uri_returns E st) as (c & st1 & Hc).
  rewrite (dataset_uri_shape E d st st1 c Hc), Hu.
  rewrite (scanned_list _ _ _ _ Hex).
  by rewrite (scan_first_match "uri" pre post e v _ Hpre Hk Hv), Ht.
Qed.

(** X14: [dataset_uri] raises only from the scan of [extras], and only when
    the [uri] field is not usable: the exception is a [TypeError] ([extras]
    or an entry is not what the loop expects) or a [KeyError] for ["key"] or
    ["value"], and the state is as before the call. *)
Theorem dataset_uri_raises_in_scan (E : Env) (d : gmap string value)
    (st st' : state) (e : exn) :
  (dataset_uri E d st = (Raise e, st') <->
   st' = st /\ truthy (dict_get d "uri") = false /\
   scanned "uri" "uri" d = Raise e) /\
  (dataset_uri E d st = (Raise e, st') ->
   e = TypeError \/ e = KeyError "key" \/ e = KeyError "value").
Proof.
  destruct (catalog_uri_returns E st) as (c & st1 & Hc).
  rewrite (dataset_uri_shape E d st st1 c Hc).
  assert (Hiff :
    (if truthy (dict_get d "uri") then (Ok (dict_get d "uri"), st)
     else
       match scanned "uri" "uri" d with
       | Raise e0 => (Raise e0, st)
       | Ok u1 =>
           if truthy u1 then (Ok u1, st)
           else if truthy (dict_get d "id") then
             (Ok (VStr (rstrip "/" c +:+ "/dataset/" +:+
                        str E (dict_get d "id"))), st1)
           else
             (Ok (VStr (rstrip "/" c +:+ "/dataset/" +:+
                        uuid4 E (uuid_count st1))),
              logged WARNING "Using a random id for dataset URI" (fresh st1))
       end) = (Raise e, st') <->
    st' = st /\ truthy (dict_get d "uri") = false /\
    scanned "uri" "uri" d = Raise e).
  { destruct (truthy (dict_get d "uri")).
    { split; [done|]. by intros (_ & ? & _). }
    destruct (scanned "uri" "uri" d) as [u1|e0].
    - split; [|by intros (_ & _ & ?)].
      destruct (truthy u1); [done|]. by destruct (truthy (dict_get d "id")).
    - split.
      + by intros [= -> ->].
      + by intros (-> & _ & [= ->]). }
  split; [exact Hiff|].
  intros (_ & _ & Hs)%Hiff. by apply (scanned_raises "uri" "uri" d).
Qed.

Lemma truthy_VStr (s : string) : truthy (VStr s) = true -> s <> "".
Proof. by destruct s. Qed.

(** X5: whatever the dictionary, a value [dataset_uri] returns is never
    [None] nor empty. *)
Theorem dataset_uri_result_usable (E : Env) (d : gmap string value)
    (st st' : state) (v : value) :
  dataset_uri E d st = (Ok v, st') -> truthy v = true.
Proof.
  destruct (catalog_uri_returns E st) as (c & st1 & Hc).
  rewrite (dataset_uri_shape E d st st1 c Hc).
  destruct (truthy (dict_get d "uri")) eqn:Hu; [by intros [= <- _]|].
  destruct (scanned "uri" "uri" d) as [u1|e0]; [|done].
  destruct (truthy u1) eqn:Hu1; [by intros [= <- _]|].
  destruct (truthy (dict_get d "id")); intros [= <- _]; by apply truthy_append.
Qed.

(** ** More on the catalog URI *)

Lemma setting_nonempty (E : Env) (k s : string) :
  setting E k = Some s -> s <> "".
Proof.
  unfold setting. destruct (config E !! k) as [[|a t]|]; [done| |done].
  by intros [= <-].
Qed.

(** X3: the catalog URI is never the empty string, also when options are set
    to the empty string. *)
Theorem catalog_uri_nonempty (E : Env) (st : state) :
  exists c st', catalog_uri E st = (Ok (VStr c), st') /\ c <> "".
Proof.
  rewrite catalog_uri_chain.
  destruct (setting E "ckanext.dcat.base_uri") as [u|] eqn:H1.
  { exists u, st. split; [done|]. by apply setting_nonempty in H1. }
  destruct (setting E "ckan.site_url") as [u|] eqn:H2.
  { exists u, st. split; [done|]. by apply setting_nonempty in H2. }
  destruct (setting E "app_instance_uuid"); by eexists _, _.
Qed.

(** X4: nothing is cached.  With none of the three options set, two calls in
    a row return ["http://"] followed by two successive draws of the UUID
    generator, and each of them logs at critical level. *)
Theorem catalog_uri_not_cached (E : Env) (st : state) :
  setting E "ckanext.dcat.base_uri" = None ->
  setting E "ckan.site_url" = None ->
  setting E "app_instance_uuid" = None ->
  exists st1 st2,
    catalog_uri E st = (Ok (VStr ("http://" +:+ uuid4 E (uuid_count st))), st1) /\
    catalog_uri E st1 =
    (Ok (VStr ("http://" +:+ uuid4 E (S (uuid_count st)))), st2) /\
    log st2 = (log st ++ [(CRITICAL, random_id_warning);
                          (CRITICAL, random_id_warning)])%list.
Proof.
  intros H1 H2 H3. rewrite !catalog_uri_chain, H1, H2, H3.
  eexists _, _. split; [done|]. rewrite !catalog_uri_chain, H1, H2, H3.
  split; [done|]. cbn [logged fresh log]. by rewrite <- app_assoc.
Qed.

Lemma effects_refl (n : nat) (st : state) : effects n st st.
Proof. exists []. rewrite app_nil_r. cbn [length]. repeat split; lia. Qed.

Lemma effects_mono (n m : nat) (st st' : state) :
  n <= m -> effects n st st' -> effects m st st'.
Proof. intros Hn (l & ? & ? & ? & ?). exists l. repeat split; try done. lia. Qed.

Lemma effects_logged (n : nat) (st st' : state) (lvl : level) (msg : string) :
  effects n st st' -> effects (S n) st (logged lvl msg st').
Proof.
  intros (l & Hl & H1 & H2 & H3). exists (l ++ [(lvl, msg)])%list.
  cbn [logged log uuid_count]. rewrite Hl, length_app, <- app_assoc.
  cbn [length]. repeat split; try done; lia.
Qed.

Lemma effects_logged_fresh (n : nat) (st st' : state) (lvl : level)
    (msg : string) :
  effects n st st' -> effects (S n) st (logged lvl msg (fresh st')).
Proof.
  intros (l & Hl & H1 & H2 & H3). exists (l ++ [(lvl, msg)])%list.
  cbn [logged fresh log uuid_count]. rewrite Hl, length_app, <- app_assoc.
  cbn [length]. repeat split; try done; lia.
Qed.

Lemma catalog_uri_effects (E : Env) (st : state) :
  effects 1 st (catalog_uri E st).2.
Proof.
  rewrite catalog_uri_chain.
  destruct (setting E "ckanext.dcat.base_uri"); [apply effects_refl|].
  destruct (setting E "ckan.site_url"); [apply effects_refl|].
  destruct (setting E "app_instance_uuid"); cbn [snd].
  - apply effects_logged, effects_refl.
  - apply effects_logged_fresh, effects_refl.
Qed.

(** X15: whatever the dictionary, [dataset_uri] only appends to the log, at
    most two entries, and draws at most as many UUIDs as it appends entries:
    no random id is used without a log entry. *)
Theorem dataset_uri_effects (E : Env) (d : gmap string value) (st : state) :
  effects 2 st (dataset_uri E d st).2.
Proof.
  pose proof (catalog_uri_effects E st) as Hcat.
  destruct (catalog_uri_returns E st) as (c & st1 & Hc).
  rewrite Hc in Hcat. cbn [snd] in Hcat.
  rewrite (dataset_uri_shape E d st st1 c Hc).
  destruct (truthy (dict_get d "uri")); [apply effects_refl|].
  destruct (scanned "uri" "uri" d) as [u1|e0]; [|apply effects_refl].
  destruct (truthy u1); [apply effects_refl|].
  destruct (truthy (dict_get d "id")); cbn [snd].
  - apply (effects_mono 1); [lia|done].
  - by apply effects_logged_fresh.
Qed.

(** ** More on the publisher URI *)

Lemma publisher_uri_shape (E : Env) (d : gmap string value) (st st1 : state)
    (c : string) :
  catalog_uri E st = (Ok (VStr c), st1) ->
  publisher_uri_from_dataset_dict E d st =
  if truthy (dict_get d "pubisher_uri")
  then (Ok (dict_get d "pubisher_uri"), st)
  else
    match scanned "pubisher_uri" "publisher_uri" d with
    | Raise e => (Raise e, st)
    | Ok u1 =>
        if truthy u1 then (Ok u1, st)
        else if truthy (dict_get d "organization") then
          match dict_get d "organization" with
          | VDict o =>
              match o !! "id" with
              | Some id =>
                  (Ok (VStr (rstrip "/" c +:+ "/organization/" +:+ str E id)),
                   st1)
              | None => (Raise (KeyError "id"), st1)
              end
          | _ => (Raise TypeError, st1)
          end
        else (Ok u1, st)
    end.
Proof.
  intros Hc. unfold publisher_uri_from_dataset_dict. cbv zeta.
  destruct (truthy (dict_get d "pubisher_uri")) eqn:Hu; cbn [negb].
  { by rewrite bind_ret, Hu. }
  destruct (scanned "pubisher_uri" "publisher_uri" d) as [u1|e] eqn:Hs.
  2:{ apply bind_Raise. by rewrite scan_steps, Hs. }
  rewrite (bind_Ok _ _ _ st u1); [|by rewrite scan_steps, Hs].
  destruct (truthy u1) eqn:Hu1; cbn [negb andb]; [done|].
  destruct (truthy (dict_get d "organization")) eqn:Ho; [|done].
  pose proof (truthy_dict_get _ _ Ho) as Hl.
  rewrite (bind_Ok _ _ _ _ _ Hc). cbn [method_rstrip]. rewrite bind_ret.
  rewrite (bind_Ok _ _ _ _ _ (dict_getitem_Some _ _ _ _ Hl)).
  destruct (dict_get d "organization") as [| | |o]; try done.
  cbn [getitem]. unfold bind, dict_getitem. by destruct (o !! "id").
Qed.

(** X10: with no organization, [publisher_uri_from_dataset_dict] returns what
    the field and the [extras] left, usable or not: an empty [pubisher_uri]
    field, or an empty [value] of the first entry named ["publisher_uri"],
    comes back as it is (the empty string), not as [None]. *)
Theorem publisher_uri_empty_value (E : Env) (d : gmap string value)
    (st : state) :
  truthy (dict_get d "pubisher_uri") = false ->
  truthy (dict_get d "organization") = false ->
  (d !! "extras" = None ->
   publisher_uri_from_dataset_dict E d st =
   (Ok (dict_get d "pubisher_uri"), st)) /\
  (forall (pre post : list value) (e : gmap string value) (v : value),
     d !! "extras" = Some (VList (pre ++ VDict e :: post)) ->
     forallb (fun x => is_extra x && negb (has_key "publisher_uri" x)) pre
       = true ->
     e !! "key" = Some (VStr "publisher_uri") ->
     e !! "value" = Some v ->
     truthy v = false ->
     publisher_uri_from_dataset_dict E d st = (Ok v, st)).
Proof.
  intros Hu Ho. destruct (catalog_uri_returns E st) as (c & st1 & Hc).
  rewrite (publisher_uri_shape E d st st1 c Hc), Hu. split.
  - intros Hex. by rewrite (scanned_no_extras _ _ _ Hex), Hu, Ho.
  - intros pre post e v Hex Hpre Hk Hv Hf.
    rewrite (scanned_list _ _ _ _ Hex).
    by rewrite (scan_first_match _ pre post e v _ Hpre Hk Hv), Hf, Ho.
Qed.

(** X16: when the field and the [extras] give nothing and [organization] is a
    non-empty dictionary without an [id], [publisher_uri_from_dataset_dict]
    raises [KeyError] for ["id"]; the catalog URI has been computed by then,
    so what that logged and drew stays. *)
Theorem publisher_uri_organization_needs_id (E : Env)
    (d o : gmap string value) (u1 : value) (st st1 : state) (c : string) :
  truthy (dict_get d "pubisher_uri") = false ->
  scanned "pubisher_uri" "publisher_uri" d = Ok u1 ->
  truthy u1 = false ->
  d !! "organization" = Some (VDict o) ->
  truthy (VDict o) = true ->
  o !! "id" = None ->
  catalog_uri E st = (Ok (VStr c), st1) ->
  publisher_uri_from_dataset_dict E d st = (Raise (KeyError "id"), st1).
Proof.
  intros Hu Hs Hu1 Ho Ht Hid Hc.
  rewrite (publisher_uri_shape E d st st1 c Hc), Hu, Hs, Hu1.
  assert (Hg : dict_get d "organization" = VDict o).
  { unfold dict_get. by rewrite Ho. }
  by rewrite Hg, Ht, Hid.
Qed.

(** ** More on the resource URI *)

(** X1: [dataset_id_from_resource] never changes the state; it returns a
    usable [package_id] without looking at anything else, and it raises,
    always [KeyError] for ["id"], exactly when the [package_id] is not usable
    and the record has no [id] key. *)
Theorem dataset_id_from_resource_behaviour (E : Env) (r : gmap string value)
    (st : state) :
  (dataset_id_from_resource E r st).2 = st /\
  (truthy (dict_get r "package_id") = true ->
   (dataset_id_from_resource E r st).1 = Ok (dict_get r "package_id")) /\
  ((dataset_id_from_resource E r st).1 = Raise (KeyError "id") <->
   truthy (dict_get r "package_id") = false /\ r !! "id" = None) /\
  (forall e : exn,
     (dataset_id_from_resource E r st).1 = Raise e -> e = KeyError "id").
Proof.
  unfold dataset_id_from_resource. cbv zeta.
  destruct (truthy (dict_get r "package_id")) eqn:Hp.
  { repeat split; try done. by intros [? _]. }
  destruct (r !! "id") as [id|] eqn:Hid.
  - rewrite (bind_Ok _ _ _ _ _ (dict_getitem_Some _ _ _ _ Hid)).
    destruct (Resource_get E id); repeat split; try done; by intros [_ ?].
  - rewrite (bind_Raise _ _ _ _ _ (dict_getitem_None _ _ _ Hid)).
    repeat split; try done. by intros e [= <-].
Qed.

Lemma resource_uri_no_id (E : Env) (r : gmap string value)
    (st st1 : state) (c : string) :
  truthy (dict_get r "uri") = false ->
  r !! "id" = None ->
  catalog_uri E st = (Ok (VStr c), st1) ->
  resource_uri E r st =
  (Raise (KeyError "id"),
   if truthy (dict_get r "package_id") then st1 else st).
Proof.
  intros Hu Hid Hc. unfold resource_uri. cbv zeta. rewrite Hu. cbn [negb].
  unfold dataset_id_from_resource. cbv zeta.
  destruct (truthy (dict_get r "package_id")).
  - rewrite bind_ret, (bind_Ok _ _ _ _ _ Hc). cbn [method_rstrip].
    rewrite bind_ret.
    by rewrite (bind_Raise _ _ _ _ _ (dict_getitem_None _ _ _ Hid)).
  - apply bind_Raise.
    by rewrite (bind_Raise _ _ _ _ _ (dict_getitem_None _ _ _ Hid)).
Qed.

(** X11: a resource without a usable [uri] and without an [id] key makes
    [resource_uri] raise [KeyError] for ["id"].  Without a usable [package_id]
    the exception comes first and the state is untouched; with one it comes
    after the catalog URI was computed, whose log entry and UUID stay. *)
Theorem resource_uri_raises_after_catalog (E : Env) (r : gmap string value)
    (st st1 : state) (c : string) :
  truthy (dict_get r "uri") = false ->
  r !! "id" = None ->
  catalog_uri E st = (Ok (VStr c), st1) ->
  resource_uri E r st =
  (Raise (KeyError "id"),
   if truthy (dict_get r "package_id") then st1 else st) /\
  effects 1 st st1.
Proof.
  intros Hu Hid Hc. split; [by apply (resource_uri_no_id E r st st1 c)|].
  pose proof (catalog_uri_effects E st) as H. by rewrite Hc in H.
Qed.

(** X12: the legacy path agrees with the direct one: when the record has no
    usable [package_id] and the lookup of its [id] finds a resource of the
    dataset [p], [resource_uri] returns what it returns for the same record
    with [package_id] set to [p]. *)
Theorem resource_uri_legacy_lookup (E : Env) (r : gmap string value)
    (rid : value) (res : Resource) (p : string) (st : state) :
  truthy (dict_get r "uri") = false ->
  truthy (dict_get r "package_id") = false ->
  r !! "id" = Some rid ->
  Resource_get E rid = Some res ->
  get_package_id res = VStr p ->
  p <> "" ->
  resource_uri E r st = resource_uri E (<[ "package_id" := VStr p ]> r) st.
Proof.
  intros Hu Hp Hid Hget Hres Hne.
  destruct (catalog_uri_returns E st) as (c & st1 & Hc).
  assert (Hp' : dict_get (<[ "package_id" := VStr p ]> r) "package_id" = VStr p).
  { unfold dict_get. by rewrite lookup_insert_eq. }
  rewrite (resource_uri_with_id E r rid st st1 c Hu Hid Hc).
  rewrite (resource_uri_with_id E (<[ "package_id" := VStr p ]> r) rid st st1 c).
  - unfold owner. rewrite Hp, Hget, Hres, Hp'. by destruct p.
  - unfold dict_get. by rewrite lookup_insert_ne.
  - by rewrite lookup_insert_ne.
  - done.
Qed.

(** X17: whatever the dictionary, [resource_uri] raises nothing but
    [KeyError] for ["id"], and only when the [uri] is not usable and the [id]
    key is missing; a value it returns is never [None] nor empty. *)
Theorem resource_uri_outcomes (E : Env) (r : gmap string value)
    (st st' : state) :
  (forall e : exn,
     resource_uri E r st = (Raise e, st') ->
     e = KeyError "id" /\ truthy (dict_get r "uri") = false /\
     r !! "id" = None) /\
  (forall v : value, resource_uri E r st = (Ok v, st') -> truthy v = true).
Proof.
  destruct (catalog_uri_returns E st) as (c & st1 & Hc).
  destruct (truthy (dict_get r "uri")) eqn:Hu.
  { unfold resource_uri. cbv zeta. rewrite Hu. cbn [negb]. split; [done|].
    by intros v [= <- _]. }
  destruct (r !! "id") as [rid|] eqn:Hid.
  - rewrite (resource_uri_with_id E r rid st st1 c Hu Hid Hc). split; [done|].
    intros v [= <- _]. by apply truthy_append.
  - rewrite (resource_uri_no_id E r st st1 c Hu Hid Hc). split; [|done].
    by intros e [= <- _].
Qed.

(** ** Trailing slashes of the base URI *)

Lemma rstrip_slashes (s : string) (n : nat) :
  rstrip "/" (s +:+ slashes n) = rstrip "/" s.
Proof.
  induction s as [|a s IH].
  - induction n as [|n IHn]; [done|].
    change ("" +:+ slashes (S n)) with (String "/" ("" +:+ slashes n)).
    cbn [rstrip]. by rewrite IHn.
  - change (String a s +:+ slashes n) with (String a (s +:+ slashes n)).
    cbn [rstrip]. by rewrite IH.
Qed.

Lemma catalog_uri_set_base_uri (E : Env) (base : string) (st : state) :
  base <> "" ->
  catalog_uri (set_base_uri base E) st = (Ok (VStr base), st).
Proof.
  intros Hne. rewrite catalog_uri_chain. unfold setting, set_base_uri.
  cbn [config]. rewrite lookup_insert_eq. by destruct base.
Qed.

Lemma append_nonempty (a b : string) : a <> "" -> a +:+ b <> "".
Proof. by destruct a. Qed.

(** X6: slashes at the end of the base URI make no difference: with a
    non-empty [ckanext.dcat.base_uri], adding any number of them leaves the
    results of [dataset_uri], [resource_uri] and
    [publisher_uri_from_dataset_dict] as they are, on every dictionary. *)
Theorem trailing_slashes_irrelevant (E : Env) (base : string) (n : nat)
    (d : gmap string value) (st : state) :
  base <> "" ->
  dataset_uri (set_base_uri (base +:+ slashes n) E) d st =
  dataset_uri (set_base_uri base E) d st /\
  resource_uri (set_base_uri (base +:+ slashes n) E) d st =
  resource_uri (set_base_uri base E) d st /\
  publisher_uri_from_dataset_dict (set_base_uri (base +:+ slashes n) E) d st =
  publisher_uri_from_dataset_dict (set_base_uri base E) d st.
Proof.
  intros Hne.
  pose proof (catalog_uri_set_base_uri E base st Hne) as H2.
  pose proof (catalog_uri_set_base_uri E (base +:+ slashes n) st
                (append_nonempty _ _ Hne)) as H1.
  split; [|split].
  - rewrite (dataset_uri_shape _ d st st _ H1), (dataset_uri_shape _ d st st _ H2).
    by rewrite rstrip_slashes.
  - destruct (truthy (dict_get d "uri")) eqn:Hu.
    { unfold resource_uri. cbv zeta. by rewrite Hu. }
    destruct (d !! "id") as [rid|] eqn:Hid.
    + rewrite (resource_uri_with_id _ d rid st st _ Hu Hid H1).
      rewrite (resource_uri_with_id _ d rid st st _ Hu Hid H2).
      by rewrite rstrip_slashes.
    + by rewrite (resource_uri_no_id _ d st st _ Hu Hid H1),
                 (resource_uri_no_id _ d st st _ Hu Hid H2).
  - rewrite (publisher_uri_shape _ d st st _ H1),
            (publisher_uri_shape _ d st st _ H2).
    by rewrite rstrip_slashes.
Qed.

(** ** More on the format translators *)

(** X7: the reverse translator followed by the forward one gives back its
    argument exactly on the strings that are not one of the four endpoint
    names the forward translator rewrites; in particular on the three rdflib
    names. *)
Theorem rdflib_round_trip (g : string) :
  url_to_rdflib_format (rdflib_to_url_format g) = g <->
  g ∉ ["ttl"; "rdf"; "xml"; "jsonld"].
Proof.
  unfold url_to_rdflib_format, rdflib_to_url_format. cbn [existsb].
  destruct (String.eqb_spec g "turtle") as [->|_]; [by round_trip_yes|].
  destruct (String.eqb_spec g "pretty-xml") as [->|_]; [by round_trip_yes|].
  destruct (String.eqb_spec g "json-ld") as [->|_]; [by round_trip_yes|].
  destruct (String.eqb_spec g "ttl") as [->|?]; [by round_trip_no|].
  destruct (String.eqb_spec g "rdf") as [->|?]; [by round_trip_no|].
  destruct (String.eqb_spec g "xml") as [->|?]; [by round_trip_no|].
  destruct (String.eqb_spec g "jsonld") as [->|?]; [by round_trip_no|].
  cbn [orb]. by round_trip_yes.
Qed.

(** X8: translating twice is translating once, in both directions: no name a
    translator returns is a name it rewrites. *)
Theorem format_translators_idempotent (f : string) :
  url_to_rdflib_format (url_to_rdflib_format f) = url_to_rdflib_format f /\
  rdflib_to_url_format (rdflib_to_url_format f) = rdflib_to_url_format f.
Proof.
  split.
  - unfold url_to_rdflib_format. cbn [existsb].
    destruct (String.eqb_spec f "ttl") as [->|?]; [done|].
    destruct (String.eqb_spec f "rdf") as [->|?]; [done|].
    destruct (String.eqb_spec f "xml") as [->|?]; [done|]. cbn [orb].
    destruct (String.eqb_spec f "jsonld") as [->|?]; [done|].
    destruct (String.eqb_spec f "ttl"); [done|].
    destruct (String.eqb_spec f "rdf"); [done|].
    destruct (String.eqb_spec f "xml"); [done|]. cbn [orb].
    by destruct (String.eqb_spec f "jsonld").
  - unfold rdflib_to_url_format.
    destruct (String.eqb_spec f "turtle") as [->|?]; [done|].
    destruct (String.eqb_spec f "pretty-xml") as [->|?]; [done|].
    destruct (String.eqb_spec f "json-ld") as [->|?]; [done|].
    destruct (String.eqb_spec f "turtle"); [done|].
    destruct (String.eqb_spec f "pretty-xml"); [done|].
    by destruct (String.eqb_spec f "json-ld").
Qed.

(** X9: the round trip of an endpoint format through rdflib's name keeps its
    content type: for every format [CONTENT_TYPES] knows, the format that
    comes back is served with the same content type (["rdf"] comes back as
    ["xml"], and both are [application/rdf+xml]). *)
Theorem round_trip_keeps_content_type (f t : string) :
  CONTENT_TYPES !! f = Some t ->
  CONTENT_TYPES !! endpoint_round_trip f = Some t.
Proof.
  intros Hf. pose proof Hf as Hin.
  apply elem_of_list_to_map_2 in Hin.
  rewrite !elem_of_cons, elem_of_nil in Hin.
  destruct Hin as [[= -> ->]|[[= -> ->]|[[= -> ->]|[[= -> ->]|[[= -> ->]|[]]]]]];
    by vm_compute.
Qed.

(** ** The further properties at sample inputs *)

Lemma usable_uri_is_returned_witness :
  truthy (dict_get dataset_uri_only "uri") = true /\
  dataset_uri (env_of_base "http://cat.org") dataset_uri_only st0 =
  (Ok (VStr "http://x/1"), st0) /\
  resource_uri (env_of_base "http://cat.org") dataset_uri_only st0 =
  (Ok (VStr "http://x/1"), st0).
Proof.
  split; [reflexivity|].
  exact (usable_uri_is_returned (env_of_base "http://cat.org")
           dataset_uri_only st0 eq_refl).
Defined.

Lemma first_matching_extra_wins_witness :
  dataset_uri (env_of_base "http://cat.org") dataset_two_extras st0 =
  (Ok (VStr "http://first.org/1"), st0).
Proof.
  apply (first_matching_extra_wins (env_of_base "http://cat.org")
           dataset_two_extras
           (<[ "key" := VStr "uri" ]> {[ "value" := VStr "http://first.org/1" ]})
           [extra "theme" "env"] [VNone]); reflexivity.
Defined.

Lemma dataset_uri_result_usable_witness :
  dataset_uri (env_of_base "http://cat.org/") dataset_abc st0 =
  (Ok (VStr "http://cat.org/dataset/abc"), st0) /\
  truthy (VStr "http://cat.org/dataset/abc") = true.
Proof.
  split; [reflexivity|].
  apply (dataset_uri_result_usable (env_of_base "http://cat.org/") dataset_abc
           st0 st0); reflexivity.
Defined.

Lemma catalog_uri_not_cached_witness :
  exists st1 st2,
    catalog_uri env_legacy st0 = (Ok (VStr "http://uuid-0"), st1) /\
    catalog_uri env_legacy st1 = (Ok (VStr "http://uuid-1"), st2) /\
    log st2 = [(CRITICAL, random_id_warning); (CRITICAL, random_id_warning)].
Proof.
  exact (catalog_uri_not_cached env_legacy st0 eq_refl eq_refl eq_refl).
Defined.

Lemma publisher_uri_empty_value_witness :
  publisher_uri_from_dataset_dict (env_of_base "http://cat.org")
    dataset_empty_pubisher st0 = (Ok (VStr ""), st0).
Proof.
  apply (proj1 (publisher_uri_empty_value (env_of_base "http://cat.org")
                  dataset_empty_pubisher st0 eq_refl eq_refl)); reflexivity.
Defined.

Lemma publisher_uri_organization_needs_id_witness :
  publisher_uri_from_dataset_dict env_legacy dataset_org_no_id st0 =
  (Raise (KeyError "id"),
   logged CRITICAL random_id_warning (fresh st0)).
Proof.
  apply (publisher_uri_organization_needs_id env_legacy dataset_org_no_id
           {[ "name" := VStr "org1" ]} VNone st0
           (logged CRITICAL random_id_warning (fresh st0)) "http://uuid-0");
    reflexivity.
Defined.

Lemma resource_uri_raises_after_catalog_witness :
  resource_uri env_legacy resource_d1 st0 =
  (Raise (KeyError "id"), logged CRITICAL random_id_warning (fresh st0)) /\
  effects 1 st0 (logged CRITICAL random_id_warning (fresh st0)).
Proof.
  apply (resource_uri_raises_after_catalog env_legacy resource_d1 st0
           (logged CRITICAL random_id_warning (fresh st0)) "http://uuid-0");
    reflexivity.
Defined.

Lemma resource_uri_legacy_lookup_witness :
  resource_uri env_legacy resource_r1 st0 =
  resource_uri env_legacy (<[ "package_id" := VStr "d1" ]> resource_r1) st0.
Proof.
  apply (resource_uri_legacy_lookup env_legacy resource_r1 (VStr "r1")
           {| get_package_id := VStr "d1" |} "d1" st0);
    try reflexivity.
  discriminate.
Defined.

Lemma trailing_slashes_irrelevant_witness :
  dataset_uri (set_base_uri "http://cat.org/" env_legacy) dataset_abc st0 =
  dataset_uri (set_base_uri "http://cat.org" env_legacy) dataset_abc st0.
Proof.
  refine (proj1 (trailing_slashes_irrelevant env_legacy "http://cat.org" 1
                   dataset_abc st0 _)).
  discriminate.
Defined.

Lemma round_trip_keeps_content_type_witness :
  CONTENT_TYPES !! "rdf" = Some "application/rdf+xml" /\
  endpoint_round_trip "rdf" = "xml" /\
  CONTENT_TYPES !! "xml" = Some "application/rdf+xml".
Proof.
  split; [reflexivity|]. split; [reflexivity|].
  exact (round_trip_keeps_content_type "rdf" "application/rdf+xml" eq_refl).
Defined.
